(** * parcel-plugin-compress: a shallow embedding of [index.js]

    The plugin listens for Parcel's [bundled] event and, in production
    mode, writes a [.gz] and a [.br] sibling next to every build output
    that a codec manages to shrink, then prints a table of what it kept.

    JavaScript values are modelled by [Value], objects by finite maps from
    property names to values, the file system by a finite map from paths
    to nodes, and the module-level array [output] by a field of the
    [World] that every operation threads through. *)

From Stdlib Require Import ZArith String List Lia Permutation Sorted.
From stdpp Require Import gmap strings list fin_maps.

Set Warnings "-register-all".
Local Open Scope string_scope.
Local Open Scope list_scope.
Local Open Scope Z_scope.

(** ** JavaScript values *)

Module JS.

(** Numbers are restricted to the integers: every number the plugin
  computes with is a byte count, a level or a flag. *)
Inductive Value :=
| VUndefined
| VNull
| VBool (b : bool)
| VNum (n : Z)
| VStr (s : string)
| VObj (o : gmap string Value).

(** [v.k] on an object; a property that is not there reads [undefined]. *)
Definition get (v : Value) (k : string) : Value :=
match v with
| VObj o => default VUndefined (o !! k)
| _ => VUndefined
end.

(** ToBoolean. *)
Definition truthy (v : Value) : bool :=
match v with
| VUndefined | VNull => false
| VBool b => b
| VNum n => negb (n =? 0)
| VStr s => negb (String.eqb s "")
| VObj _ => true
end.

(** [a === b] on primitives.  Two object operands are equal only when they
  are the same reference, which never happens where the plugin uses
  [===] (one operand is always a literal). *)
Definition strict_equals (a b : Value) : bool :=
match a, b with
| VUndefined, VUndefined => true
| VNull, VNull => true
| VBool x, VBool y => Bool.eqb x y
| VNum x, VNum y => x =? y
| VStr x, VStr y => String.eqb x y
| _, _ => false
end.

(** The own enumerable properties that [...v] copies into an object
  literal: those of an object, none for [undefined], [null], booleans and
  numbers.  (A string would spread its characters; no configuration
  layer of the plugin is a string, and the model spreads none.) *)
Definition spread (v : Value) : gmap string Value :=
match v with
| VObj o => o
| _ => ∅
end.

(** [a || b]. *)
Definition or_else (a b : Value) : Value := if truthy a then a else b.

End JS.
Export JS.

(** What the embedding takes from the JavaScript engine and from Node:
    the string case of ToNumber, regular expressions, and the wall clock.
    [RegExp pattern] is [None] when [new RegExp(pattern)] throws, and
    otherwise the [test] method of the compiled expression (no flags are
    given, so [test] keeps no state between calls).  [wall_clock n] is the
    value of the [n]-th call of [new Date().getTime()]. *)
Class Host := {
  StringToNumber : string -> option Z;
  RegExp : Value -> option (string -> bool);
  wall_clock : nat -> Z
}.

(** ToNumber, with [None] for NaN. *)
Definition ToNumber `{Host} (v : Value) : option Z :=
  match v with
  | VUndefined => None
  | VNull => Some 0
  | VBool b => Some (if b then 1 else 0)
  | VNum n => Some n
  | VStr s => StringToNumber s
  | VObj _ => None
  end.

(** [n < v] for a number [n]: false as soon as [v] converts to NaN. *)
Definition less_than `{Host} (n : Z) (v : Value) : bool :=
  match ToNumber v with
  | Some m => n <? m
  | None => false
  end.

(** ** Constants of Node's [zlib] module

    The parameter identifiers are used as computed property keys, so they
    appear here as the strings the numbers convert to. *)

Module zlib.
Definition Z_BEST_COMPRESSION : Value := VNum 9.
Definition BROTLI_MODE_GENERIC : Value := VNum 0.
Definition BROTLI_MODE_TEXT : Value := VNum 1.
Definition BROTLI_MODE_FONT : Value := VNum 2.
Definition BROTLI_PARAM_MODE : string := "0".
Definition BROTLI_PARAM_QUALITY : string := "1".
Definition BROTLI_PARAM_LGWIN : string := "2".
Definition BROTLI_PARAM_LGBLOCK : string := "3".
Definition BROTLI_PARAM_DISABLE_LITERAL_CONTEXT_MODELING : string := "4".
Definition BROTLI_PARAM_SIZE_HINT : string := "5".
Definition BROTLI_PARAM_NPOSTFIX : string := "7".
Definition BROTLI_PARAM_NDIRECT : string := "8".
End zlib.

(** ** Configuration *)

Definition defaultOptions_gzip : gmap string Value :=
  list_to_map [
    ("enabled", VBool true);
    ("numiterations", VNum 15);
    ("blocksplitting", VBool true);
    ("blocksplittinglast", VBool false);
    ("blocksplittingmax", VNum 15);
    ("zlib", VBool false);
    ("zlibLevel", zlib.Z_BEST_COMPRESSION);
    ("zlibMemLevel", zlib.Z_BEST_COMPRESSION)
  ].

Definition defaultOptions_brotli : gmap string Value :=
  list_to_map [
    ("enabled", VBool true);
    ("mode", VNum 0);
    ("quality", VNum 11);
    ("lgwin", VNum 24);
    ("enable_context_modeling", VBool true)
  ].

Definition defaultOptions : Value :=
  VObj (list_to_map [
    ("test", VStr ".");
    ("compressOutput", VBool false);
    ("threshold", VUndefined);
    ("concurrency", VNum 2);
    ("gzip", VObj defaultOptions_gzip);
    ("brotli", VObj defaultOptions_brotli)
  ]).

(** The object literal [{ ...defaults, threshold, ...codec }]: later
    entries overwrite earlier ones, so the spread of [codec] is laid over
    the [threshold] property, which is laid over the defaults. *)
Definition merge_config (defaults : Value) (threshold : Value) (codec : Value)
  : Value :=
  VObj (spread codec ∪ <["threshold" := threshold]> (spread defaults)).

(** The argument of [gzipCompress] at the call site in the [bundled]
    handler. *)
Definition gzip_config (threshold gzip : Value) : Value :=
  merge_config (get defaultOptions "gzip") threshold gzip.

(** The argument of [brotliCompress] at the call site. *)
Definition brotli_config (threshold brotli : Value) : Value :=
  merge_config (get defaultOptions "brotli") threshold brotli.

(** ** The file system

    Paths are normalised absolute paths without a trailing separator, as
    Parcel resolves them.  A directory's listing is read off the paths the
    file system holds, so a file created by [writeFile] shows up in the
    listing of its directory. *)

Inductive Error := ENOENT | EACCES | EISDIR | ENOTDIR | CodecError.

Inductive Result (A : Type) :=
| Ok (a : A)
| Err (e : Error).
Arguments Ok {A} a.
Arguments Err {A} e.

Definition is_ok {A} (r : Result A) : bool :=
  match r with Ok _ => true | Err _ => false end.

Inductive Node :=
| NFile (content : list Byte.byte) (readable writable : bool)
| NDir (listable : bool)
| NOther      (* a socket, a FIFO, a device *)
| NDangling.  (* a link whose target is gone: [stat] fails on it *)

Record Stats := {
  isFile : bool;
  isDirectory : bool;
  st_size : Z
}.

Definition statSync (fs : gmap string Node) (p : string) : Result Stats :=
  match fs !! p with
  | None => Err ENOENT
  | Some NDangling => Err ENOENT
  | Some (NFile content _ _) =>
      Ok {| isFile := true; isDirectory := false;
            st_size := Z.of_nat (length content) |}
  | Some (NDir _) => Ok {| isFile := false; isDirectory := true; st_size := 0 |}
  | Some NOther => Ok {| isFile := false; isDirectory := false; st_size := 0 |}
  end.

(** [path.join(dir, file)] for a normalised [dir] and an entry name. *)
Definition path_join (dir file : string) : string := dir +:+ "/" +:+ file.

(** The entry name of [p] inside [dir], when [p] lies directly in it. *)
Definition entry_name (dir p : string) : option string :=
  let pre := dir +:+ "/" in
  if String.prefix pre p then
    let rest :=
      substring (String.length pre) (String.length p - String.length pre) p in
    if String.eqb rest "" then None
    else match index 0 "/" rest with
         | Some _ => None
         | None => Some rest
         end
  else None.

Definition readdirSync (fs : gmap string Node) (dir : string)
  : Result (list string) :=
  match fs !! dir with
  | None | Some NDangling => Err ENOENT
  | Some (NDir true) => Ok (omap (entry_name dir) (map fst (map_to_list fs)))
  | Some (NDir false) => Err EACCES
  | Some _ => Err ENOTDIR
  end.

Definition readFile (fs : gmap string Node) (p : string)
  : Result (list Byte.byte) :=
  match fs !! p with
  | None | Some NDangling => Err ENOENT
  | Some (NFile content true _) => Ok content
  | Some (NFile _ false _) => Err EACCES
  | Some (NDir _) => Err EISDIR
  | Some NOther => Err EACCES
  end.

(** [fs.writeFile(p, data, callback)]: the error handed to the callback, if
    any, and the file system afterwards. *)
Definition writeFile (fs : gmap string Node) (p : string)
  (data : list Byte.byte) : option Error * gmap string Node :=
  match fs !! p with
  | None | Some NDangling => (None, <[p := NFile data true true]> fs)
  | Some (NFile _ r true) => (None, <[p := NFile data r true]> fs)
  | Some (NFile _ _ false) => (Some EACCES, fs)
  | Some (NDir _) => (Some EISDIR, fs)
  | Some NOther => (Some EACCES, fs)
  end.

(** ** The world the handler runs in *)

(** One element of the module-level array [output]. *)
Record Outcome := {
  o_size : Z;
  o_file : string;
  o_time : Z
}.

Record World := {
  fs : gmap string Node;
  output : list Outcome;      (* [let output = []] at module level *)
  clock_reads : nat           (* calls of [getTime] so far *)
}.

Definition set_fs (f : gmap string Node) (w : World) : World :=
  {| fs := f; output := output w; clock_reads := clock_reads w |}.

Definition set_output (o : list Outcome) (w : World) : World :=
  {| fs := fs w; output := o; clock_reads := clock_reads w |}.

(** [output.push(o)]. *)
Definition push (o : Outcome) (w : World) : World :=
  set_output (output w ++ [o]) w.

(** [new Date().getTime()]. *)
Definition Date_getTime `{Host} (w : World) : Z * World :=
  (wall_clock (clock_reads w),
   {| fs := fs w; output := output w; clock_reads := S (clock_reads w) |}).

(** How a task's promise settles. *)
Inductive Settled := Resolved | Rejected (reason : Error).

(** ** The codecs

    [zopfliAdapter] and [brotliAdapter] are modules of the plugin that are
    not among the sources at hand, and [zlib.gzip] is Node's; what they
    return is taken as given.  The two gzip encoders hand an error or a
    buffer to their callback; [brotli.compress] returns a buffer or
    [null]. *)
Class Codecs := {
  zopfli_gzip : list Byte.byte -> Value -> Result (list Byte.byte);
  zlib_gzip : list Byte.byte -> Value -> Result (list Byte.byte);
  brotli_isZlib : bool;
  brotli_compress : list Byte.byte -> Value -> option (list Byte.byte)
}.

Section Tasks.
Context `{Host} `{Codecs}.

(** The gate [config.threshold && stat.size < config.threshold]. *)
Definition below_threshold (config : Value) (stat : Stats) : bool :=
  truthy (get config "threshold")
  && less_than (st_size stat) (get config "threshold").

(** *** gzip *)

Definition handleCompressedData (file : string) (stat : Stats) (start : Z)
  (result : Result (list Byte.byte)) (w : World) : Settled * World :=
  match result with
  | Err err => (Rejected err, w)
  | Ok compressedContent =>
      if st_size stat >? Z.of_nat (length compressedContent) then
        let fileName := file +:+ ".gz" in
        (* the callback of [writeFile] takes no argument *)
        let '(_, fs') := writeFile (fs w) fileName compressedContent in
        let w := set_fs fs' w in
        let '(end_, w) := Date_getTime w in
        (Resolved,
         push {| o_size := Z.of_nat (length compressedContent);
                 o_file := fileName;
                 o_time := end_ - start |} w)
      else (Resolved, w)
  end.

(** The encoder chosen by [config.zlib], and what it hands to
    [handleCompressedData]. *)
Definition gzip_encode (content : list Byte.byte) (config : Value)
  : Result (list Byte.byte) :=
  if truthy (get config "zlib") then
    zlib_gzip content
      (VObj (list_to_map [("level", get config "zlibLevel");
                          ("memLevel", get config "zlibMemLevel")]))
  else zopfli_gzip content config.

(** The promise [gzipCompress] returns once the gates are passed. *)
Definition gzip_promise (file : string) (config : Value) (stat : Stats)
  (start : Z) (w : World) : Settled * World :=
  match readFile (fs w) file with
  | Err err => (Rejected err, w)
  | Ok content =>
      handleCompressedData file stat start (gzip_encode content config) w
  end.

Definition gzipCompress (file : string) (config : Value) (w : World)
  : Settled * World :=
  if negb (truthy (get config "enabled")) then (Resolved, w) else
  match statSync (fs w) file with
  | Err _ => (Resolved, w)
  | Ok stat =>
      let '(start, w) := Date_getTime w in
      if negb (isFile stat) then (Resolved, w) else
      if below_threshold config stat then (Resolved, w) else
      gzip_promise file config stat start w
  end.

(** *** Brotli *)

(** [config.params[key] = v] on the object [config]. *)
Definition set_param (config : Value) (key : string) (v : Value) : Value :=
  match config with
  | VObj o =>
      match o !! "params" with
      | Some (VObj params) => VObj (<["params" := VObj (<[key := v]> params)]> o)
      | _ => config
      end
  | _ => config
  end.

(** The body of [if (brotli.isZlib) { ... }]: the variable [config] is
    assigned the object holding the native parameter block, and the three
    optional parameters are then looked up on [config]. *)
Definition native_config (config : Value) (stat : Stats) : Value :=
  let brotliMode :=
    if strict_equals (get config "mode") (VNum 1) then zlib.BROTLI_MODE_TEXT
    else if strict_equals (get config "mode") (VNum 2) then zlib.BROTLI_MODE_FONT
    else zlib.BROTLI_MODE_GENERIC in
  let config :=
    VObj {[ "params" := VObj (list_to_map [
      (zlib.BROTLI_PARAM_MODE, brotliMode);
      (zlib.BROTLI_PARAM_QUALITY, get config "quality");
      (zlib.BROTLI_PARAM_SIZE_HINT, VNum (st_size stat));
      (zlib.BROTLI_PARAM_LGWIN, get config "lgwin");
      (zlib.BROTLI_PARAM_DISABLE_LITERAL_CONTEXT_MODELING,
       VBool (if strict_equals (get config "enable_context_modeling")
                   (VBool false)
              then true else false))
    ]) ]} in
  let config :=
    if truthy (get config "lgblock")
    then set_param config zlib.BROTLI_PARAM_LGBLOCK (get config "lgblock")
    else config in
  let config :=
    if truthy (get config "nPostfix")
    then set_param config zlib.BROTLI_PARAM_NPOSTFIX (get config "nPostfix")
    else config in
  let config :=
    if truthy (get config "nDirect")
    then set_param config zlib.BROTLI_PARAM_NDIRECT (get config "nDirect")
    else config in
  config.

(** What [brotli.compress] receives as its second argument. *)
Definition brotli_argument (config : Value) (stat : Stats) : Value :=
  if brotli_isZlib then native_config config stat else config.

(** The promise [brotliCompress] returns once the gates are passed;
    [config] is already the argument for the codec. *)
Definition brotli_promise (file : string) (config : Value) (stat : Stats)
  (start : Z) (w : World) : Settled * World :=
  match readFile (fs w) file with
  | Err err => (Rejected err, w)
  | Ok content =>
      match brotli_compress content config with
      | Some compressedContent =>
          if st_size stat >? Z.of_nat (length compressedContent) then
            let fileName := file +:+ ".br" in
            let '(_, fs') := writeFile (fs w) fileName compressedContent in
            let w := set_fs fs' w in
            let '(end_, w) := Date_getTime w in
            (Resolved,
             push {| o_size := Z.of_nat (length compressedContent);
                     o_file := fileName;
                     o_time := end_ - start |} w)
          else (Resolved, w)
      | None => (Resolved, w)
      end
  end.

Definition brotliCompress (file : string) (config : Value) (w : World)
  : Settled * World :=
  if negb (truthy (get config "enabled")) then (Resolved, w) else
  match statSync (fs w) file with
  | Err _ => (Resolved, w)
  | Ok stat =>
      let '(start, w) := Date_getTime w in
      if negb (isFile stat) then (Resolved, w) else
      if below_threshold config stat then (Resolved, w) else
      brotli_promise file (brotli_argument config stat) stat start w
  end.

End Tasks.

(** ** Discovery *)

(** How the body of a generator ends: it returns, or it throws.  The
    directory walk recurses on a counter; [Exhausted] marks a walk cut
    short by the counter, which [walk_completes] below rules out for the
    counter [filesToCompress_dir] starts with. *)
Inductive Completion := Returned | Threw | Exhausted.

(** What a consumer that drains a generator sees: the values yielded, in
    order, and how the body ended. *)
Definition Generated : Type := list string * Completion.

Section DirectoryWalk.
Context (fileTest : string -> bool) (fs : gmap string Node).

(** The loop [for (const file of files)] of the directory generator,
    with [recur] standing for the recursive call.  An exception thrown by
    [statSync] leaves the generator; one thrown inside [yield*] is caught
    and the loop continues, the values yielded before it staying
    yielded. *)
Fixpoint for_files (recur : string -> Generated) (dir : string)
  (files : list string) : Generated :=
  match files with
  | [] => ([], Returned)
  | file :: files =>
      let f := path_join dir file in
      match statSync fs f with
      | Err _ => ([], Threw)
      | Ok stat =>
          if isDirectory stat then
            match recur f with
            | (inner, Exhausted) => (inner, Exhausted)
            | (inner, _) =>
                let '(rest, c) := for_files recur dir files in
                (inner ++ rest, c)
            end
          else if fileTest f then
            let '(rest, c) := for_files recur dir files in
            (f :: rest, c)
          else for_files recur dir files
      end
  end.

Fixpoint walk (fuel : nat) (dir : string) : Generated :=
  match fuel with
  | O => ([], Exhausted)
  | S fuel =>
      match readdirSync fs dir with
      | Err _ => ([], Threw)
      | Ok files => for_files (walk fuel) dir files
      end
  end.

(** The length of the longest path the file system holds: no directory
    lies deeper. *)
Definition longest_path : nat :=
  max_list (map (fun kv => String.length (fst kv)) (map_to_list fs)).

(** [filesToCompress] of the branch [compressOutput === true]. *)
Definition filesToCompress_dir (dir : string) : Generated :=
  walk (S longest_path) dir.

End DirectoryWalk.

(** What one entry [f] of a listed directory adds to the walk: the paths
    yielded under it when it is a directory, itself when it is anything
    else and matches the pattern. *)
Definition entry_paths (fileTest : string -> bool) (fs : gmap string Node)
  (f : string) : list string :=
  match statSync fs f with
  | Err _ => []
  | Ok stat =>
      if isDirectory stat then fst (filesToCompress_dir fileTest fs f)
      else if fileTest f then [f] else []
  end.

(** A bundle of Parcel's bundle tree, as far as the handler reads it. *)
Inductive Bundle :=
| mkBundle (name : option string) (childBundles : list Bundle).

(** [filesToCompress] of the other branch.  Nothing in its body throws. *)
Fixpoint filesToCompress_bundle (fileTest : string -> bool) (bundle : Bundle)
  : list string :=
  match bundle with
  | mkBundle name childBundles =>
      (match name with
       | Some n => if negb (String.eqb n "") && fileTest n then [n] else []
       | None => []
       end)
      ++ flat_map (filesToCompress_bundle fileTest) childBundles
  end.

(** [[...generator]]: the array of the yielded values, unless the
    generator throws. *)
Definition spread_generator (g : Generated) : option (list string) :=
  match g with
  | (files, Returned) => Some files
  | _ => None
  end.

(** ** The queue *)

(** [p-queue], as far as the handler uses it: the options it is built
    with and the tasks added so far.  Tasks here run to completion one
    after the other in the order they were added; the interleaving of the
    tasks in flight is not modelled. *)
Record PQueue := {
  concurrency : Value;
  tasks : list (World -> Settled * World)
}.

Definition new_pQueue (options : Value) : PQueue :=
  {| concurrency := get options "concurrency"; tasks := [] |}.

Definition add (task : World -> Settled * World) (queue : PQueue) : PQueue :=
  {| concurrency := concurrency queue; tasks := tasks queue ++ [task] |}.

Fixpoint run_tasks (ts : list (World -> Settled * World)) (w : World)
  : list Settled * World :=
  match ts with
  | [] => ([], w)
  | t :: ts =>
      let '(s, w) := t w in
      let '(ss, w) := run_tasks ts w in
      (s :: ss, w)
  end.

(** [await queue.onIdle()]. *)
Definition onIdle (queue : PQueue) (w : World) : list Settled * World :=
  run_tasks (tasks queue) w.

(** ** The report *)

(** [formatter.js] is not among the sources at hand: the comparison
    function and the row formatter are taken as given. *)
Class Formatter := {
  Row : Type;
  sortResults : Outcome -> Outcome -> Z;
  formatResults : Outcome -> Row
}.

Section ArraySort.
Context (compare : Outcome -> Outcome -> Z).

Fixpoint sort_insert (x : Outcome) (l : list Outcome) : list Outcome :=
  match l with
  | [] => [x]
  | y :: l' => if compare x y <=? 0 then x :: l else y :: sort_insert x l'
  end.

(** [Array.prototype.sort] with a comparison function: the stable
    ordering of the elements. *)
Fixpoint Array_sort (l : list Outcome) : list Outcome :=
  match l with
  | [] => []
  | x :: l' => sort_insert x (Array_sort l')
  end.
End ArraySort.

(** ** The [bundled] handler *)

(** How [explorer.search()] settles: rejected, or resolved with [null] or
    with a result object that carries the configuration found. *)
Inductive Search := SearchRejected | SearchResolved (result : Value).

(** The event's payload: the root bundle, and
    [bundle.entryAsset.options.outDir]. *)
Record BundleEvent := {
  root : Bundle;
  outDir : string
}.

Inductive RunResult (R : Type) :=
| NotProduction                 (* the handler does nothing *)
| CompressionError              (* the [catch] branch *)
| Reported (rows : list R).     (* the argument of [table] *)
Arguments NotProduction {R}.
Arguments CompressionError {R}.
Arguments Reported {R} rows.

(** Destructuring [undefined] or [null] throws. *)
Definition destructurable (v : Value) : bool :=
  match v with
  | VUndefined | VNull => false
  | _ => true
  end.

Section Handler.
Context `{Host} `{Codecs} `{Formatter}.

(** The configuration object the handler destructures. *)
Definition resolved_config (result : Value) : Value :=
  get (or_else result (VObj {[ "config" := defaultOptions ]})) "config".

(** The queue the handler builds. *)
Definition queue_of (config : Value) : PQueue :=
  new_pQueue (VObj {[ "concurrency" := get defaultOptions "concurrency" ]}).

(** The two tasks added for each file. *)
Definition enqueue (threshold gzip brotli : Value) (queue : PQueue)
  (file : string) : PQueue :=
  add (brotliCompress file (brotli_config threshold brotli))
    (add (gzipCompress file (gzip_config threshold gzip)) queue).

Definition bundled (production : bool) (search : Search)
  (bundle : BundleEvent) (w : World) : RunResult Row * World :=
  if negb production then (NotProduction, w) else
  let '(start, w) := Date_getTime w in
  match search with
  | SearchRejected => (CompressionError, w)
  | SearchResolved result =>
      let config := resolved_config result in
      if negb (destructurable config) then (CompressionError, w) else
      let gzip := get config "gzip" in
      let brotli := get config "brotli" in
      let test := get config "test" in
      let threshold := get config "threshold" in
      let compressOutput := get config "compressOutput" in
      match RegExp test with
      | None => (CompressionError, w)
      | Some fileTest =>
          let files :=
            if strict_equals compressOutput (VBool true)
            then spread_generator
                   (filesToCompress_dir fileTest (fs w) (outDir bundle))
            else Some (filesToCompress_bundle fileTest (root bundle)) in
          match files with
          | None => (CompressionError, w)
          | Some files =>
              let queue := queue_of config in
              let queue :=
                fold_left (enqueue threshold gzip brotli) files queue in
              let '(_, w) := onIdle queue w in
              let '(end_, w) := Date_getTime w in
              let sorted := Array_sort sortResults (output w) in
              let w := set_output sorted w in
              (Reported (map formatResults sorted), w)
          end
      end
  end.

(** The outcomes a run of the handler pushes: what [output] holds after
    the same run started with [output] empty. *)
Definition produced_by (production : bool) (search : Search)
  (bundle : BundleEvent) (w : World) : list Outcome :=
  output (snd (bundled production search bundle (set_output [] w))).

End Handler.

(** ** Worlds that differ in what [output] already holds *)

(** The world [w] with the outcomes [earlier] in front of its own. *)
Definition with_earlier (earlier : list Outcome) (w : World) : World :=
  set_output (earlier ++ output w) w.

(** A task that never reads [output]: started with more outcomes already
    in the array, it settles the same way and leaves the same world, the
    earlier outcomes still in front. *)
Definition framed {A : Type} (task : World -> A * World) : Prop :=
  forall earlier w,
    task (with_earlier earlier w) =
    (fst (task w), with_earlier earlier (snd (task w))).

(** ** Notions the properties are stated with *)

(** The names the bundles of a tree carry, the root's before its
    children's, each child's subtree in turn. *)
Fixpoint bundle_names (bundle : Bundle) : list string :=
  match bundle with
  | mkBundle name childBundles =>
      (match name with Some n => [n] | None => [] end)
      ++ flat_map bundle_names childBundles
  end.

(** [bundle.name && fileTest.test(bundle.name)]. *)
Definition bundle_test (fileTest : string -> bool) (n : string) : bool :=
  negb (String.eqb n "") && fileTest n.

(** Whether [writeFile] succeeds on the path [p]. *)
Definition writable (fs : gmap string Node) (p : string) : bool :=
  match fs !! p with
  | Some (NFile _ _ false) | Some (NDir _) | Some NOther => false
  | _ => true
  end.

(** A path below the directory [dir] that [statSync] can examine and that
    is not a directory. *)
Definition found_under (fs : gmap string Node) (dir p : string) : Prop :=
  String.prefix (dir +:+ "/") p = true
  /\ exists stat, statSync fs p = Ok stat /\ isDirectory stat = false.

(** The two paths a candidate file's artifacts are written to. *)
Definition artifact_of (file p : string) : Prop :=
  p = file +:+ ".gz" \/ p = file +:+ ".br".

(** ** Concrete hosts, codecs and worlds *)

Module Demo.

Definition ends_with (suffix s : string) : bool :=
  let n := String.length s in
  let m := String.length suffix in
  (m <=? n)%nat && String.eqb (substring (n - m) m s) suffix.

(** A host that knows the patterns the examples use: the default ["."],
    an absent pattern, and ["\.js$"]. *)
Definition host : Host := {|
  StringToNumber := fun _ => None;
  RegExp := fun pattern =>
    match pattern with
    | VUndefined => Some (fun _ => true)
    | VStr "." => Some (fun s => negb (String.eqb s ""))
    | VStr "\.js$" => Some (ends_with ".js")
    | _ => None
    end;
  wall_clock := fun n => 1000 + 7 * Z.of_nat n
|}.

Definition half (content : list Byte.byte) : list Byte.byte :=
  firstn (length content / 2) content.

(** Codecs that halve their input. *)
Definition halving : Codecs := {|
  zopfli_gzip := fun content _ => Ok (half content);
  zlib_gzip := fun content _ => Ok (half content);
  brotli_isZlib := true;
  brotli_compress := fun content _ => Some (half content)
|}.

(** Codecs that add a one-byte header and shrink nothing. *)
Definition framing : Codecs := {|
  zopfli_gzip := fun content _ => Ok (Byte.x1f :: content);
  zlib_gzip := fun content _ => Ok (Byte.x1f :: content);
  brotli_isZlib := true;
  brotli_compress := fun content _ => Some (Byte.x1f :: content)
|}.

(** Rows are the outcomes themselves, ordered by file name. *)
Definition by_file : Formatter := {|
  Row := Outcome;
  sortResults := fun a b =>
    match String.compare (o_file a) (o_file b) with
    | Lt => -1
    | Eq => 0
    | Gt => 1
    end;
  formatResults := fun o => o
|}.

Definition four_bytes : list Byte.byte :=
  [Byte.x61; Byte.x62; Byte.x63; Byte.x64].


(** The same script, with its two artifact names already taken: by a
    directory and by a read-only file. *)
Definition taken_fs : gmap string Node :=
  list_to_map [
    ("/out", NDir true);
    ("/out/a.js", NFile four_bytes true true);
    ("/out/a.js.gz", NDir true);
    ("/out/a.js.br", NFile [] true false)
  ].

(** A subdirectory whose listing is [c.js], [lost], [d.js], the middle
    entry a dangling link. *)
Definition broken_fs : gmap string Node :=
  list_to_map [
    ("/out", NDir true);
    ("/out/sub", NDir true);
    ("/out/sub/c.js", NFile four_bytes true true);
    ("/out/sub/lost", NDangling);
    ("/out/sub/d.js", NFile four_bytes true true);
    ("/out/z.js", NFile four_bytes true true)
  ].

(** A script nobody may read beside one that is readable. *)
Definition unreadable_fs : gmap string Node :=
  list_to_map [
    ("/out", NDir true);
    ("/out/a.js", NFile four_bytes true true);
    ("/out/secret.js", NFile four_bytes false true)
  ].

(** Codecs that fail: the gzip encoders with an error, Brotli with
    [null]. *)
Definition failing : Codecs := {|
  zopfli_gzip := fun _ _ => Err CodecError;
  zlib_gzip := fun _ _ => Err CodecError;
  brotli_isZlib := false;
  brotli_compress := fun _ _ => None
|}.


(** What [statSync] reports for a regular file of [n] bytes. *)
Definition a_stat (n : Z) : Stats :=
  {| isFile := true; isDirectory := false; st_size := n |}.

(** A script of four bytes beside an empty style sheet. *)
Definition small_fs : gmap string Node :=
  list_to_map [
    ("/out", NDir true);
    ("/out/a.js", NFile four_bytes true true);
    ("/out/empty.css", NFile [] true true)
  ].

Definition world (f : gmap string Node) : World :=
  {| fs := f; output := []; clock_reads := 0 |}.

Definition event : BundleEvent :=
  {| root := mkBundle (Some "/out/a.js") []; outDir := "/out" |}.

(** A configuration file that switches both codecs off. *)
Definition codecs_off : Value :=
  VObj (list_to_map [
    ("test", VStr ".");
    ("gzip", VObj {[ "enabled" := VBool false ]});
    ("brotli", VObj {[ "enabled" := VBool false ]})
  ]).

(** A configuration file that asks for four tasks at a time. *)
Definition four_at_a_time : Value :=
  VObj (list_to_map [
    ("test", VStr ".");
    ("concurrency", VNum 4)
  ]).

(** A Brotli section that sets the three optional parameters. *)
Definition tuned_brotli : Value :=
  VObj (list_to_map [
    ("mode", VNum 1);
    ("enable_context_modeling", VBool false);
    ("lgblock", VNum 20);
    ("nPostfix", VNum 1);
    ("nDirect", VNum 4)
  ]).

End Demo.

(** * Properties *)

(** ** Values and configuration *)



Lemma get_merge_config (defaults threshold codec : Value) (k : string) :
  get (merge_config defaults threshold codec) k =
  match spread codec !! k with
  | Some v => v
  | None => if String.eqb k "threshold" then threshold else get (VObj (spread defaults)) k
  end.
Proof.
  unfold merge_config. cbn [get].
  destruct (spread codec !! k) as [v|] eqn:E.
  - now rewrite (lookup_union_Some_l _ _ _ _ E).
  - rewrite lookup_union_r by exact E.
    destruct (String.eqb_spec k "threshold") as [->|N].
    + now rewrite lookup_insert_eq.
    + rewrite lookup_insert_ne by congruence. reflexivity.
Qed.

(** C5, as the code has it: the merged configuration reads a property from
    the discovered codec section when the section has it, else the
    call-site [threshold] for the property [threshold], else the built-in
    default; the precedence is defaults < call-site threshold < discovered
    codec section, for gzip and for Brotli. *)
Theorem C5_merge_precedence (threshold gzip brotli : Value) (k : string) :
  get (gzip_config threshold gzip) k =
    match spread gzip !! k with
    | Some v => v
    | None => if String.eqb k "threshold" then threshold
              else get (get defaultOptions "gzip") k
    end
  /\ get (brotli_config threshold brotli) k =
    match spread brotli !! k with
    | Some v => v
    | None => if String.eqb k "threshold" then threshold
              else get (get defaultOptions "brotli") k
    end.
Proof.
  split; unfold gzip_config, brotli_config; rewrite get_merge_config;
    reflexivity.
Qed.

(** C5, as stated, fails: a codec section with its own [threshold] of 5
    wins over the call-site threshold of 100. *)
Lemma C5_section_threshold_wins :
  get (gzip_config (VNum 100) (VObj {[ "threshold" := VNum 5 ]})) "threshold"
    = VNum 5
  /\ get (gzip_config (VNum 100) (VObj {[ "threshold" := VNum 5 ]})) "threshold"
    <> VNum 100
  /\ get (brotli_config (VNum 100) (VObj {[ "threshold" := VNum 5 ]})) "threshold"
    <> VNum 100.
Proof.
  assert (G : forall d, get (merge_config d (VNum 100)
                         (VObj {[ "threshold" := VNum 5 ]})) "threshold" = VNum 5).
  { intros d. rewrite get_merge_config. cbn [spread].
    replace (({[ "threshold" := VNum 5 ]} : gmap string Value) !! "threshold")
      with (Some (VNum 5)) by (vm_compute; reflexivity).
    reflexivity. }
  unfold gzip_config, brotli_config. rewrite !G. repeat split; discriminate.
Qed.

(** ** The Brotli parameter block *)

(** Reading a property off an object literal. *)
Lemma get_literal (k : string) (v : Value) (l : list (string * Value))
  (k' : string) :
  get (VObj (list_to_map ((k, v) :: l))) k' =
  if String.eqb k k' then v else get (VObj (list_to_map l)) k'.
Proof.
  cbn [get list_to_map foldr]. rewrite lookup_insert.
  destruct (String.eqb_spec k k') as [->|N].
  - rewrite decide_True by reflexivity. reflexivity.
  - rewrite decide_False by exact N. reflexivity.
Qed.

Lemma get_params_only (p : Value) (k : string) :
  k <> "params" -> get (VObj {[ "params" := p ]}) k = VUndefined.
Proof.
  intros N. cbn [get]. rewrite lookup_singleton_ne by congruence. reflexivity.
Qed.

Lemma get_params (p : Value) : get (VObj {[ "params" := p ]}) "params" = p.
Proof. cbn [get]. rewrite lookup_singleton_eq. reflexivity. Qed.

(** Whatever the configuration, the object assigned to [config] holds the
    single property [params], so none of the three optional parameters is
    found on it and the block stays as the literal built it. *)
Lemma native_config_eq (config : Value) (stat : Stats) :
  native_config config stat =
  VObj {[ "params" := VObj (list_to_map [
        (zlib.BROTLI_PARAM_MODE,
         if strict_equals (get config "mode") (VNum 1) then zlib.BROTLI_MODE_TEXT
         else if strict_equals (get config "mode") (VNum 2) then zlib.BROTLI_MODE_FONT
         else zlib.BROTLI_MODE_GENERIC);
        (zlib.BROTLI_PARAM_QUALITY, get config "quality");
        (zlib.BROTLI_PARAM_SIZE_HINT, VNum (st_size stat));
        (zlib.BROTLI_PARAM_LGWIN, get config "lgwin");
        (zlib.BROTLI_PARAM_DISABLE_LITERAL_CONTEXT_MODELING,
         VBool (if strict_equals (get config "enable_context_modeling")
                     (VBool false)
                then true else false))]) ]}.
Proof.
  unfold native_config. cbv zeta.
  repeat (rewrite get_params_only by discriminate; cbn [truthy]).
  reflexivity.
Qed.

Lemma native_config_optional_absent (config : Value) (stat : Stats) :
  let params := spread (get (native_config config stat) "params") in
  params !! zlib.BROTLI_PARAM_LGBLOCK = None
  /\ params !! zlib.BROTLI_PARAM_NPOSTFIX = None
  /\ params !! zlib.BROTLI_PARAM_NDIRECT = None.
Proof.
  cbv zeta. rewrite native_config_eq, get_params. cbn [spread].
  repeat split; reflexivity.
Qed.

(** C3, at a Brotli section that sets [lgblock], [nPostfix] and [nDirect]:
    the merged configuration carries the three values, and the parameter
    block built from it has none of the three keys. *)
Theorem C3_optional_parameters_dropped :
  let config := brotli_config VUndefined Demo.tuned_brotli in
  let params := spread (get (native_config config (Demo.a_stat 4)) "params") in
  get config "lgblock" = VNum 20
  /\ get config "nPostfix" = VNum 1
  /\ get config "nDirect" = VNum 4
  /\ params !! zlib.BROTLI_PARAM_LGBLOCK = None
  /\ params !! zlib.BROTLI_PARAM_NPOSTFIX = None
  /\ params !! zlib.BROTLI_PARAM_NDIRECT = None.
Proof.
  cbv zeta. repeat split; try (vm_compute; reflexivity);
    apply native_config_optional_absent.
Qed.



(** ** Compression tasks *)


Section TaskProperties.
Context `{Host} `{Codecs}.







End TaskProperties.





(** ** The size gate *)

Section SizeGate.
Context `{Host} `{Codecs}.

(** What [handleCompressedData] leaves behind: nothing, or the written
    artifact together with one more element of [output], and the latter
    only for a result strictly smaller than the original. *)
Lemma handleCompressedData_cases (file : string) (stat : Stats) (start : Z)
  (result : Result (list Byte.byte)) (w : World) :
  let r := handleCompressedData file stat start result w in
  (fs (snd r) = fs w /\ output (snd r) = output w)
  \/ exists c time,
       result = Ok c
       /\ Z.of_nat (length c) < st_size stat
       /\ fs (snd r) = snd (writeFile (fs w) (file +:+ ".gz") c)
       /\ output (snd r) =
          output w ++ [{| o_size := Z.of_nat (length c);
                          o_file := file +:+ ".gz";
                          o_time := time |}].
Proof.
  unfold handleCompressedData. destruct result as [c|e]; [|left; auto].
  destruct (st_size stat >? Z.of_nat (length c)) eqn:G; [|left; auto].
  right. exists c. eexists. split; [reflexivity|].
  split; [apply Z.gtb_lt in G; lia|].
  destruct (writeFile (fs w) (file +:+ ".gz") c) as [e fs']. cbn.
  split; reflexivity.
Qed.

Lemma handleCompressedData_discards (file : string) (stat : Stats)
  (start : Z) (c : list Byte.byte) (w : World) :
  st_size stat <= Z.of_nat (length c) ->
  handleCompressedData file stat start (Ok c) w = (Resolved, w).
Proof.
  intros L. unfold handleCompressedData.
  destruct (st_size stat >? Z.of_nat (length c)) eqn:G; [|reflexivity].
  apply Z.gtb_lt in G. lia.
Qed.

Lemma gzipCompress_cases (file : string) (config : Value) (w : World) :
  let r := gzipCompress file config w in
  (fs (snd r) = fs w /\ output (snd r) = output w)
  \/ exists stat content c time,
       statSync (fs w) file = Ok stat
       /\ readFile (fs w) file = Ok content
       /\ gzip_encode content config = Ok c
       /\ Z.of_nat (length c) < st_size stat
       /\ fs (snd r) = snd (writeFile (fs w) (file +:+ ".gz") c)
       /\ output (snd r) =
          output w ++ [{| o_size := Z.of_nat (length c);
                          o_file := file +:+ ".gz";
                          o_time := time |}].
Proof.
  unfold gzipCompress.
  destruct (truthy (get config "enabled")); cbn [negb]; [|left; auto].
  destruct (statSync (fs w) file) as [stat|e] eqn:St; [|left; auto].
  cbn [Date_getTime].
  destruct (isFile stat); cbn [negb]; [|left; auto].
  destruct (below_threshold config stat); [left; auto|].
  unfold gzip_promise. cbn [fs].
  destruct (readFile (fs w) file) as [content|e] eqn:Rd; [|left; auto].
  match goal with
  | |- context [handleCompressedData ?f ?s ?t ?res ?w'] =>
      destruct (handleCompressedData_cases f s t res w')
        as [U|(c & time & Enc & Lt & Fs & Out)]
  end.
  - left. exact U.
  - right. exists stat, content, c, time. cbn [fs output] in Fs, Out.
    repeat (split; [first [reflexivity | assumption]|]). assumption.
Qed.

Lemma brotliCompress_cases (file : string) (config : Value) (w : World) :
  let r := brotliCompress file config w in
  (fs (snd r) = fs w /\ output (snd r) = output w)
  \/ exists stat content c time,
       statSync (fs w) file = Ok stat
       /\ readFile (fs w) file = Ok content
       /\ brotli_compress content (brotli_argument config stat) = Some c
       /\ Z.of_nat (length c) < st_size stat
       /\ fs (snd r) = snd (writeFile (fs w) (file +:+ ".br") c)
       /\ output (snd r) =
          output w ++ [{| o_size := Z.of_nat (length c);
                          o_file := file +:+ ".br";
                          o_time := time |}].
Proof.
  unfold brotliCompress.
  destruct (truthy (get config "enabled")); cbn [negb]; [|left; auto].
  destruct (statSync (fs w) file) as [stat|e] eqn:St; [|left; auto].
  cbn [Date_getTime].
  destruct (isFile stat); cbn [negb]; [|left; auto].
  destruct (below_threshold config stat); [left; auto|].
  unfold brotli_promise. cbn [fs].
  destruct (readFile (fs w) file) as [content|e] eqn:Rd; [|left; auto].
  destruct (brotli_compress content (brotli_argument config stat))
    as [c|] eqn:Enc; [|left; auto].
  destruct (st_size stat >? Z.of_nat (length c)) eqn:G; [|left; auto].
  right. exists stat, content, c. eexists.
  repeat (split; [first [eassumption | reflexivity]|]).
  split; [apply Z.gtb_lt in G; lia|].
  destruct (writeFile (fs w) (file +:+ ".br") c) as [e fs']. cbn.
  split; reflexivity.
Qed.

Lemma gzipCompress_discards (file : string) (config : Value) (w : World)
  (stat : Stats) (content c : list Byte.byte) :
  statSync (fs w) file = Ok stat ->
  readFile (fs w) file = Ok content ->
  gzip_encode content config = Ok c ->
  st_size stat <= Z.of_nat (length c) ->
  fs (snd (gzipCompress file config w)) = fs w
  /\ output (snd (gzipCompress file config w)) = output w.
Proof.
  intros St Rd Enc L. unfold gzipCompress.
  destruct (truthy (get config "enabled")); cbn [negb]; [|auto].
  rewrite St. cbn [Date_getTime].
  destruct (isFile stat); cbn [negb]; [|auto].
  destruct (below_threshold config stat); [auto|].
  unfold gzip_promise. cbn [fs]. rewrite Rd, Enc.
  rewrite handleCompressedData_discards by exact L. auto.
Qed.

Lemma brotliCompress_discards (file : string) (config : Value) (w : World)
  (stat : Stats) (content c : list Byte.byte) :
  statSync (fs w) file = Ok stat ->
  readFile (fs w) file = Ok content ->
  brotli_compress content (brotli_argument config stat) = Some c ->
  st_size stat <= Z.of_nat (length c) ->
  fs (snd (brotliCompress file config w)) = fs w
  /\ output (snd (brotliCompress file config w)) = output w.
Proof.
  intros St Rd Enc L. unfold brotliCompress.
  destruct (truthy (get config "enabled")); cbn [negb]; [|auto].
  rewrite St. cbn [Date_getTime].
  destruct (isFile stat); cbn [negb]; [|auto].
  destruct (below_threshold config stat); [auto|].
  unfold brotli_promise. cbn [fs]. rewrite Rd, Enc.
  destruct (st_size stat >? Z.of_nat (length c)) eqn:G; [|auto].
  apply Z.gtb_lt in G. lia.
Qed.

(** A failed write changes nothing about what the callback does: the
    promise resolves and the outcome is pushed. *)
Lemma handleCompressedData_ignores_write_error (file : string)
  (stat : Stats) (start : Z) (c : list Byte.byte) (w : World) (e : Error) :
  Z.of_nat (length c) < st_size stat ->
  fst (writeFile (fs w) (file +:+ ".gz") c) = Some e ->
  fst (handleCompressedData file stat start (Ok c) w) = Resolved
  /\ output (snd (handleCompressedData file stat start (Ok c) w)) =
     output w ++ [{| o_size := Z.of_nat (length c);
                     o_file := file +:+ ".gz";
                     o_time := wall_clock (clock_reads w) - start |}].
Proof.
  intros L W. unfold handleCompressedData.
  destruct (st_size stat >? Z.of_nat (length c)) eqn:G.
  - destruct (writeFile (fs w) (file +:+ ".gz") c) as [e' fs']. cbn.
    split; reflexivity.
  - rewrite Z.gtb_ltb in G. apply Z.ltb_ge in G. lia.
Qed.

End SizeGate.

(** C6: each task either leaves the file system and [output] as they were,
    or its codec returned a result strictly smaller than the size
    [statSync] reported, in which case [writeFile] is called on the
    artifact's path and one outcome is pushed; and a result that is as
    large as the original or larger leaves both as they were. *)
Theorem C6_size_gate `{Host} `{Codecs} (file : string) (config : Value)
  (w : World) :
  let g := snd (gzipCompress file config w) in
  let b := snd (brotliCompress file config w) in
  ((fs g = fs w /\ output g = output w)
   \/ exists stat content c time,
        statSync (fs w) file = Ok stat
        /\ readFile (fs w) file = Ok content
        /\ gzip_encode content config = Ok c
        /\ Z.of_nat (length c) < st_size stat
        /\ fs g = snd (writeFile (fs w) (file +:+ ".gz") c)
        /\ output g =
           output w ++ [{| o_size := Z.of_nat (length c);
                           o_file := file +:+ ".gz";
                           o_time := time |}])
  /\ ((fs b = fs w /\ output b = output w)
   \/ exists stat content c time,
        statSync (fs w) file = Ok stat
        /\ readFile (fs w) file = Ok content
        /\ brotli_compress content (brotli_argument config stat) = Some c
        /\ Z.of_nat (length c) < st_size stat
        /\ fs b = snd (writeFile (fs w) (file +:+ ".br") c)
        /\ output b =
           output w ++ [{| o_size := Z.of_nat (length c);
                           o_file := file +:+ ".br";
                           o_time := time |}])
  /\ (forall stat content c,
        statSync (fs w) file = Ok stat ->
        readFile (fs w) file = Ok content ->
        gzip_encode content config = Ok c ->
        st_size stat <= Z.of_nat (length c) ->
        fs g = fs w /\ output g = output w)
  /\ (forall stat content c,
        statSync (fs w) file = Ok stat ->
        readFile (fs w) file = Ok content ->
        brotli_compress content (brotli_argument config stat) = Some c ->
        st_size stat <= Z.of_nat (length c) ->
        fs b = fs w /\ output b = output w).
Proof.
  cbv zeta. split; [apply gzipCompress_cases|].
  split; [apply brotliCompress_cases|].
  split; intros stat content c St Rd Enc L.
  - now apply gzipCompress_discards with stat content c.
  - now apply brotliCompress_discards with stat content c.
Qed.

(** C6 on a script of four bytes: codecs that return five bytes leave no
    artifact and no outcome. *)
Lemma C6_size_gate_witness :
  let w := Demo.world Demo.small_fs in
  (fs (snd (@gzipCompress Demo.host Demo.framing "/out/a.js"
              (gzip_config VUndefined VUndefined) w)) = fs w
   /\ output (snd (@gzipCompress Demo.host Demo.framing "/out/a.js"
              (gzip_config VUndefined VUndefined) w)) = [])
  /\ (fs (snd (@brotliCompress Demo.host Demo.framing "/out/a.js"
              (brotli_config VUndefined VUndefined) w)) = fs w
   /\ output (snd (@brotliCompress Demo.host Demo.framing "/out/a.js"
              (brotli_config VUndefined VUndefined) w)) = []).
Proof.
  cbv zeta. split.
  - destruct (@C6_size_gate Demo.host Demo.framing "/out/a.js"
                (gzip_config VUndefined VUndefined) (Demo.world Demo.small_fs))
      as (_ & _ & G & _).
    apply (G (Demo.a_stat 4) Demo.four_bytes (Byte.x1f :: Demo.four_bytes));
      vm_compute; first [reflexivity | discriminate].
  - destruct (@C6_size_gate Demo.host Demo.framing "/out/a.js"
                (brotli_config VUndefined VUndefined) (Demo.world Demo.small_fs))
      as (_ & _ & _ & B).
    apply (B (Demo.a_stat 4) Demo.four_bytes (Byte.x1f :: Demo.four_bytes));
      vm_compute; first [reflexivity | discriminate].
Defined.

(** C1, at a script whose two artifact paths cannot be written (one is a
    directory, the other a read-only file): both writes fail, both tasks
    resolve, and each pushes an outcome for the artifact it did not
    write. *)
Theorem C1_outcome_recorded_after_failed_write :
  let w := Demo.world Demo.taken_fs in
  let g := @gzipCompress Demo.host Demo.halving "/out/a.js"
             (gzip_config VUndefined VUndefined) w in
  let b := @brotliCompress Demo.host Demo.halving "/out/a.js"
             (brotli_config VUndefined VUndefined) w in
  writeFile (fs w) "/out/a.js.gz" (Demo.half Demo.four_bytes)
    = (Some EISDIR, fs w)
  /\ writeFile (fs w) "/out/a.js.br" (Demo.half Demo.four_bytes)
    = (Some EACCES, fs w)
  /\ fst g = Resolved
  /\ fs (snd g) = fs w
  /\ output (snd g) =
     [{| o_size := 2; o_file := "/out/a.js.gz"; o_time := 7 |}]
  /\ fst b = Resolved
  /\ fs (snd b) = fs w
  /\ output (snd b) =
     [{| o_size := 2; o_file := "/out/a.js.br"; o_time := 7 |}].
Proof.
  cbv zeta. repeat split; vm_compute; reflexivity.
Qed.

(** ** The queue's bound *)

(** The queue is built from [defaultOptions], whatever was resolved. *)
Lemma queue_of_default (config : Value) :
  concurrency (queue_of config) = VNum 2.
Proof. vm_compute. reflexivity. Qed.

(** C2, at a configuration file that sets [concurrency] to 4: the resolved
    configuration carries 4, and the queue the handler builds is bounded
    by 2. *)
Theorem C2_queue_bound_ignores_configuration :
  let search_result := VObj {[ "config" := Demo.four_at_a_time ]} in
  let config := @resolved_config search_result in
  get config "concurrency" = VNum 4
  /\ concurrency (@queue_of config) = VNum 2
  /\ concurrency (@queue_of config) <> get config "concurrency".
Proof.
  cbv zeta.
  assert (get (resolved_config (VObj {[ "config" := Demo.four_at_a_time ]}))
            "concurrency" = VNum 4) as E by (vm_compute; reflexivity).
  rewrite E. split; [reflexivity|]. rewrite queue_of_default.
  split; [reflexivity | discriminate].
Qed.

(** ** Runs of the handler *)

Lemma sort_insert_perm (compare : Outcome -> Outcome -> Z) (x : Outcome)
  (l : list Outcome) :
  sort_insert compare x l ≡ₚ x :: l.
Proof.
  induction l as [|y l IH]; cbn [sort_insert]; [reflexivity|].
  destruct (compare x y <=? 0); [reflexivity|].
  rewrite IH. apply perm_swap.
Qed.

Lemma Array_sort_perm (compare : Outcome -> Outcome -> Z) (l : list Outcome) :
  Array_sort compare l ≡ₚ l.
Proof.
  induction l as [|x l IH]; cbn [Array_sort]; [reflexivity|].
  rewrite sort_insert_perm. now rewrite IH.
Qed.

Section Frames.
Context `{Host} `{Codecs}.

Lemma gzipCompress_framed (file : string) (config : Value) :
  framed (gzipCompress file config).
Proof.
  intros earlier [f o n].
  unfold gzipCompress, with_earlier, set_output.
  cbn [fs output clock_reads].
  destruct (truthy (get config "enabled")); cbn [negb]; [|reflexivity].
  destruct (statSync f file) as [stat|e]; [|reflexivity].
  cbn [Date_getTime fs output clock_reads].
  destruct (isFile stat); cbn [negb]; [|reflexivity].
  destruct (below_threshold config stat); [reflexivity|].
  unfold gzip_promise. cbn [fs].
  destruct (readFile f file) as [content|e]; [|reflexivity].
  unfold handleCompressedData.
  destruct (gzip_encode content config) as [c|e]; [|reflexivity].
  destruct (st_size stat >? Z.of_nat (length c)); [|reflexivity].
  cbn [fs].
  destruct (writeFile f (file +:+ ".gz") c) as [e fs'].
  unfold push, set_output. cbn. now rewrite app_assoc.
Qed.

Lemma brotliCompress_framed (file : string) (config : Value) :
  framed (brotliCompress file config).
Proof.
  intros earlier [f o n].
  unfold brotliCompress, with_earlier, set_output.
  cbn [fs output clock_reads].
  destruct (truthy (get config "enabled")); cbn [negb]; [|reflexivity].
  destruct (statSync f file) as [stat|e]; [|reflexivity].
  cbn [Date_getTime fs output clock_reads].
  destruct (isFile stat); cbn [negb]; [|reflexivity].
  destruct (below_threshold config stat); [reflexivity|].
  unfold brotli_promise. cbn [fs].
  destruct (readFile f file) as [content|e]; [|reflexivity].
  destruct (brotli_compress content (brotli_argument config stat))
    as [c|]; [|reflexivity].
  destruct (st_size stat >? Z.of_nat (length c)); [|reflexivity].
  cbn [fs].
  destruct (writeFile f (file +:+ ".br") c) as [e fs'].
  unfold push, set_output. cbn. now rewrite app_assoc.
Qed.

Lemma run_tasks_framed (ts : list (World -> Settled * World)) :
  Forall framed ts -> framed (run_tasks ts).
Proof.
  induction 1 as [|t ts Ft _ IH]; intros earlier w; cbn [run_tasks].
  - reflexivity.
  - rewrite Ft. destruct (t w) as [s w1]. cbn [fst snd].
    rewrite IH. destruct (run_tasks ts w1) as [ss w2]. reflexivity.
Qed.

Lemma enqueue_framed (threshold gzip brotli : Value) (files : list string)
  (queue : PQueue) :
  Forall framed (tasks queue) ->
  Forall framed (tasks (fold_left (enqueue threshold gzip brotli) files queue)).
Proof.
  revert queue. induction files as [|file files IH]; intros queue F;
    cbn [fold_left]; [exact F|].
  apply IH. unfold enqueue, add. cbn [tasks].
  rewrite <- app_assoc. apply Forall_app. split; [exact F|].
  repeat constructor;
    [apply gzipCompress_framed | apply brotliCompress_framed].
Qed.

Context `{Formatter}.

(** A run started with more outcomes already in [output] ends with those
    outcomes and its own in [output]. *)
Lemma bundled_accumulates (production : bool) (search : Search)
  (bundle : BundleEvent) (earlier : list Outcome) (w : World) :
  output (snd (bundled production search bundle (with_earlier earlier w)))
  ≡ₚ earlier ++ output (snd (bundled production search bundle w)).
Proof.
  unfold bundled.
  destruct production; cbn [negb]; [|reflexivity].
  cbn [Date_getTime with_earlier set_output fs output clock_reads].
  destruct search as [|result]; [reflexivity|].
  destruct (destructurable (resolved_config result)); cbn [negb];
    [|reflexivity].
  destruct (RegExp (get (resolved_config result) "test")) as [fileTest|];
    [|reflexivity].
  match goal with
  | |- context [match ?found with Some _ => _ | None => _ end] =>
      destruct found as [files|]; [|reflexivity]
  end.
  unfold onIdle.
  match goal with
  | |- context [run_tasks ?ts {| fs := fs w; output := earlier ++ output w;
                                 clock_reads := ?n |}] =>
      change {| fs := fs w; output := earlier ++ output w; clock_reads := n |}
        with (with_earlier earlier
                {| fs := fs w; output := output w; clock_reads := n |});
      rewrite (run_tasks_framed ts);
        [destruct (run_tasks ts {| fs := fs w; output := output w;
                                   clock_reads := n |}) as [ss w2]
        | apply enqueue_framed; constructor]
  end.
  cbn. rewrite !Array_sort_perm. reflexivity.
Qed.

End Frames.

(** C4, as the code has it: [output] is never emptied, so at the end of
    every run the array handed to the reporter holds what it held when the
    run started together with the outcomes the run produced, and the rows
    given to [table] are the formatted elements of that whole array. *)
Theorem C4_report_accumulates `{Host} `{Codecs} `{Formatter}
  (production : bool) (search : Search) (bundle : BundleEvent) (w : World) :
  let r := bundled production search bundle w in
  output (snd r) ≡ₚ output w ++ produced_by production search bundle w
  /\ (forall rows, fst r = Reported rows ->
        rows = map formatResults (output (snd r))).
Proof.
  cbv zeta. split.
  - unfold produced_by.
    rewrite <- (bundled_accumulates production search bundle (output w)
                  (set_output [] w)).
    unfold with_earlier, set_output. cbn. rewrite app_nil_r.
    destruct w; reflexivity.
  - intros rows. unfold bundled.
    destruct production; cbn [negb]; [|discriminate].
    cbn [Date_getTime].
    destruct search as [|result]; [discriminate|].
    destruct (destructurable (resolved_config result)); cbn [negb];
      [|discriminate].
    destruct (RegExp (get (resolved_config result) "test")) as [fileTest|];
      [|discriminate].
    match goal with
    | |- context [match ?found with Some _ => _ | None => _ end] =>
        destruct found as [files|]; [|discriminate]
    end.
    match goal with
    | |- context [onIdle ?q ?w1] => destruct (onIdle q w1) as [ss w2]
    end.
    cbn. intros E. injection E as <-. reflexivity.
Qed.

(** C4 on two runs over the same script: the first compresses with the
    defaults, the second finds a configuration that switches both codecs
    off; the second run's rows are the formatted elements of [output]. *)
Lemma C4_report_accumulates_witness :
  let first := @bundled Demo.host Demo.halving Demo.by_file true
                 (SearchResolved VNull) Demo.event
                 (Demo.world Demo.small_fs) in
  let second := @bundled Demo.host Demo.halving Demo.by_file true
                  (SearchResolved (VObj {[ "config" := Demo.codecs_off ]}))
                  Demo.event (snd first) in
  [{| o_size := 2; o_file := "/out/a.js.br"; o_time := 7 |};
   {| o_size := 2; o_file := "/out/a.js.gz"; o_time := 7 |}]
  = map (@formatResults Demo.by_file) (output (snd second)).
Proof.
  cbv zeta.
  destruct (@C4_report_accumulates Demo.host Demo.halving Demo.by_file true
              (SearchResolved (VObj {[ "config" := Demo.codecs_off ]}))
              Demo.event
              (snd (@bundled Demo.host Demo.halving Demo.by_file true
                      (SearchResolved VNull) Demo.event
                      (Demo.world Demo.small_fs)))) as [_ Rows].
  apply Rows. vm_compute. reflexivity.
Defined.

(** C4, as stated, fails on those two runs: the second run produces
    nothing, and the array handed to the reporter at its end still holds
    the two outcomes of the first run. *)
Lemma C4_second_run_reports_first_run :
  let first := @bundled Demo.host Demo.halving Demo.by_file true
                 (SearchResolved VNull) Demo.event
                 (Demo.world Demo.small_fs) in
  let off := SearchResolved (VObj {[ "config" := Demo.codecs_off ]}) in
  let second := @bundled Demo.host Demo.halving Demo.by_file true off
                  Demo.event (snd first) in
  @produced_by Demo.host Demo.halving Demo.by_file true off Demo.event
    (snd first) = []
  /\ fst second =
     Reported [{| o_size := 2; o_file := "/out/a.js.br"; o_time := 7 |};
               {| o_size := 2; o_file := "/out/a.js.gz"; o_time := 7 |}]
  /\ output (snd second) <>
     @produced_by Demo.host Demo.halving Demo.by_file true off Demo.event
       (snd first).
Proof.
  cbv zeta. repeat split; vm_compute; first [reflexivity | discriminate].
Qed.

(** ** The directory walk *)

Lemma length_append (a b : string) :
  String.length (a +:+ b) = (String.length a + String.length b)%nat.
Proof.
  induction a as [|c a IH]; [reflexivity|].
  change (S (String.length (a +:+ b)) = S (String.length a + String.length b))%nat.
  now rewrite IH.
Qed.

Lemma length_path_join (dir file : string) :
  (String.length dir < String.length (path_join dir file))%nat.
Proof. unfold path_join. rewrite !length_append. cbn. lia. Qed.

Section WalkProperties.
Context (fileTest : string -> bool) (fs : gmap string Node).

Lemma statSync_held (f : string) (stat : Stats) :
  statSync fs f = Ok stat -> (String.length f <= longest_path fs)%nat.
Proof.
  unfold statSync, longest_path. intros E.
  destruct (fs !! f) as [n|] eqn:L; [|discriminate].
  apply max_list_elem_of_le, list_elem_of_fmap.
  exists (f, n). split; [reflexivity|]. now apply elem_of_map_to_list.
Qed.



(** The counter never runs out. *)
Lemma for_files_not_exhausted (recur : string -> Generated) (dir : string)
  (files : list string) :
  (forall file stat,
      statSync fs (path_join dir file) = Ok stat ->
      snd (recur (path_join dir file)) <> Exhausted) ->
  snd (for_files fileTest fs recur dir files) <> Exhausted.
Proof.
  intros R. induction files as [|file files IH]; cbn [for_files snd];
    [discriminate|].
  destruct (statSync fs (path_join dir file)) as [stat|e] eqn:St;
    [|discriminate].
  destruct (isDirectory stat).
  - pose proof (R file stat St) as Rf.
    destruct (recur (path_join dir file)) as [inner c].
    destruct (for_files fileTest fs recur dir files) as [rest c'].
    cbn [snd] in *. destruct c; cbn [snd]; congruence.
  - destruct (fileTest (path_join dir file)); [|exact IH].
    destruct (for_files fileTest fs recur dir files) as [rest c'].
    exact IH.
Qed.

Lemma walk_not_exhausted (fuel : nat) (dir : string) :
  (String.length dir <= longest_path fs)%nat ->
  (longest_path fs < fuel + String.length dir)%nat ->
  snd (walk fileTest fs fuel dir) <> Exhausted.
Proof.
  revert dir. induction fuel as [|fuel IH]; intros dir Le Lt; [lia|].
  cbn [walk]. destruct (readdirSync fs dir) as [files|e]; [|discriminate].
  apply for_files_not_exhausted. intros file stat St.
  pose proof (statSync_held _ _ St). pose proof (length_path_join dir file).
  apply IH; lia.
Qed.


(** A walk that completes is the same walk with a larger counter. *)
Lemma for_files_stable (recur recur' : string -> Generated) (dir : string)
  (files : list string) :
  (forall f, snd (recur f) <> Exhausted -> recur' f = recur f) ->
  snd (for_files fileTest fs recur dir files) <> Exhausted ->
  for_files fileTest fs recur' dir files = for_files fileTest fs recur dir files.
Proof.
  intros R. induction files as [|file files IH]; cbn [for_files];
    [reflexivity|].
  destruct (statSync fs (path_join dir file)) as [stat|e]; [|reflexivity].
  destruct (isDirectory stat).
  - pose proof (R (path_join dir file)) as Rf.
    destruct (recur (path_join dir file)) as [inner c].
    cbn [snd] in Rf.
    destruct c.
    + rewrite Rf by discriminate.
      destruct (for_files fileTest fs recur dir files) as [rest c'].
      cbn [snd] in *. intros N. now rewrite (IH N).
    + rewrite Rf by discriminate.
      destruct (for_files fileTest fs recur dir files) as [rest c'].
      cbn [snd] in *. intros N. now rewrite (IH N).
    + cbn [snd]. congruence.
  - destruct (fileTest (path_join dir file)).
    + destruct (for_files fileTest fs recur dir files) as [rest c'].
      cbn [snd] in *. intros N. now rewrite (IH N).
    + exact IH.
Qed.

Lemma walk_stable (fuel : nat) (dir : string) :
  snd (walk fileTest fs fuel dir) <> Exhausted ->
  walk fileTest fs (S fuel) dir = walk fileTest fs fuel dir.
Proof.
  revert dir. induction fuel as [|fuel IH]; intros dir N.
  - cbn in N. congruence.
  - cbn [walk] in *.
    destruct (readdirSync fs dir) as [files|e]; [|reflexivity].
    apply for_files_stable; [|exact N]. intros f Nf. apply (IH f Nf).
Qed.

(** A listed directory whose entries can all be examined: the loop runs
    to its end and yields, entry after entry, what each entry adds. *)
Lemma for_files_returns (recur : string -> Generated) (dir : string)
  (files : list string) :
  (forall file stat,
      statSync fs (path_join dir file) = Ok stat ->
      isDirectory stat = true ->
      snd (recur (path_join dir file)) <> Exhausted
      /\ fst (recur (path_join dir file)) =
         fst (filesToCompress_dir fileTest fs (path_join dir file))) ->
  forallb (fun file => is_ok (statSync fs (path_join dir file))) files = true ->
  for_files fileTest fs recur dir files =
  (flat_map (fun file => entry_paths fileTest fs (path_join dir file)) files,
   Returned).
Proof.
  intros R. induction files as [|file files IH]; cbn [for_files forallb flat_map];
    [reflexivity|].
  intros A. apply andb_prop in A as [A1 A2]. specialize (IH A2).
  unfold entry_paths at 1.
  destruct (statSync fs (path_join dir file)) as [stat|e] eqn:St;
    [|discriminate].
  destruct (isDirectory stat) eqn:D.
  - destruct (R file stat St D) as [Rn Re].
    destruct (recur (path_join dir file)) as [inner c].
    cbn [fst snd] in *. rewrite IH, <- Re.
    destruct c; [reflexivity | reflexivity | congruence].
  - rewrite IH. destruct (fileTest (path_join dir file)); reflexivity.
Qed.

Lemma filesToCompress_dir_returns (root : string) (files : list string) :
  readdirSync fs root = Ok files ->
  forallb (fun file => is_ok (statSync fs (path_join root file))) files = true ->
  filesToCompress_dir fileTest fs root =
  (flat_map (fun file => entry_paths fileTest fs (path_join root file)) files,
   Returned).
Proof.
  intros Rd A. unfold filesToCompress_dir at 1. cbn [walk]. rewrite Rd.
  apply for_files_returns; [|exact A].
  intros file stat St D.
  pose proof (statSync_held _ _ St). pose proof (length_path_join root file).
  assert (snd (walk fileTest fs (longest_path fs) (path_join root file))
          <> Exhausted) as N by (apply walk_not_exhausted; lia).
  split; [exact N|].
  unfold filesToCompress_dir. now rewrite walk_stable.
Qed.


End WalkProperties.



(** An error in the middle of a subdirectory ends the walk of that
    subdirectory only: the script yielded before it stays, the one after
    it is not reached, and the walk goes on with the root's next entry. *)
Example walk_keeps_earlier_yields :
  readdirSync Demo.broken_fs "/out/sub" = Ok ["c.js"; "lost"; "d.js"]
  /\ filesToCompress_dir (Demo.ends_with ".js") Demo.broken_fs "/out"
     = (["/out/sub/c.js"; "/out/z.js"], Returned).
Proof. split; vm_compute; reflexivity. Qed.

(** * Further properties *)

(** ** Discovery in the bundle tree *)

Lemma Bundle_nested_ind (P : Bundle -> Prop) :
  (forall name childBundles,
      Forall P childBundles -> P (mkBundle name childBundles)) ->
  forall bundle, P bundle.
Proof.
  intros Step. fix IH 1. intros [name childBundles]. apply Step.
  induction childBundles as [|child rest IHrest]; constructor;
    [apply IH | exact IHrest].
Qed.

Lemma filter_flat_map {A B : Type} (keep : B -> bool) (g : A -> list B)
  (l : list A) :
  List.filter keep (flat_map g l) = flat_map (fun x => List.filter keep (g x)) l.
Proof.
  induction l as [|x l IH]; cbn [flat_map]; [reflexivity|].
  now rewrite List.filter_app, IH.
Qed.

(** X1: the bundle-tree generator yields the names of the tree in
    pre-order (a bundle before its children, the children in turn), keeping
    exactly the names that are non-empty and pass the pattern; bundles
    without a name are passed over and their children still visited. *)
Theorem X1_bundle_discovery_is_filtered_preorder (fileTest : string -> bool)
  (bundle : Bundle) :
  filesToCompress_bundle fileTest bundle =
  List.filter (bundle_test fileTest) (bundle_names bundle).
Proof.
  induction bundle as [name childBundles IH] using Bundle_nested_ind.
  cbn [filesToCompress_bundle bundle_names].
  rewrite List.filter_app, filter_flat_map. f_equal.
  - destruct name as [n|]; [|reflexivity]. cbn [List.filter].
    unfold bundle_test. destruct (negb (String.eqb n "") && fileTest n);
      reflexivity.
  - induction IH as [|child rest Hc _ IHrest]; cbn [flat_map];
      [reflexivity|]. now rewrite Hc, IHrest.
Qed.

(** ** What the queue is given *)

Section QueueProperties.
Context `{Host} `{Codecs}.

Lemma tasks_enqueued (threshold gzip brotli : Value) (files : list string)
  (queue : PQueue) :
  tasks (fold_left (enqueue threshold gzip brotli) files queue) =
  tasks queue
  ++ flat_map (fun file =>
        [gzipCompress file (gzip_config threshold gzip);
         brotliCompress file (brotli_config threshold brotli)]) files.
Proof.
  revert queue. induction files as [|file files IH]; intros queue;
    cbn [fold_left flat_map].
  - now rewrite app_nil_r.
  - rewrite IH. unfold enqueue, add. cbn [tasks].
    rewrite <- !app_assoc. reflexivity.
Qed.

End QueueProperties.

(** X2: the handler adds exactly two tasks per discovered file, the gzip
    task of a file directly before its Brotli task, files in discovery
    order; so the queue holds twice as many tasks as there are files,
    duplicates in the discovery counted as often as they occur. *)
Theorem X2_two_tasks_per_file `{Host} `{Codecs} (config threshold gzip brotli : Value)
  (files : list string) :
  let queue := fold_left (enqueue threshold gzip brotli) files (queue_of config) in
  tasks queue =
    flat_map (fun file =>
        [gzipCompress file (gzip_config threshold gzip);
         brotliCompress file (brotli_config threshold brotli)]) files
  /\ length (tasks queue) = (2 * length files)%nat.
Proof.
  cbv zeta. rewrite tasks_enqueued. cbn [queue_of new_pQueue tasks app].
  split; [reflexivity|].
  induction files as [|file files IH]; cbn [flat_map length app];
    [reflexivity|]. rewrite IH. lia.
Qed.

(** ** What a task leaves behind *)


Lemma writeFile_succeeds (f : gmap string Node) (p : string)
  (data : list Byte.byte) :
  fst (writeFile f p data) = None <-> writable f p = true.
Proof.
  unfold writeFile, writable.
  destruct (f !! p) as [[content r [|]|l| |]|]; cbn [fst]; split;
    congruence.
Qed.



Section Elsewhere.
Context `{Host} `{Codecs}.



(** A task leaves [output] as it was or appends one outcome that names
    its artifact. *)
Lemma gzipCompress_output (file : string) (config : Value) (w : World) :
  output (snd (gzipCompress file config w)) = output w
  \/ exists o, output (snd (gzipCompress file config w)) = output w ++ [o]
               /\ o_file o = file +:+ ".gz".
Proof.
  destruct (gzipCompress_cases file config w)
    as [[_ ->]|(stat & content & c & time & _ & _ & _ & _ & _ & ->)];
    [left; reflexivity | right; eexists; split; reflexivity].
Qed.

Lemma brotliCompress_output (file : string) (config : Value) (w : World) :
  output (snd (brotliCompress file config w)) = output w
  \/ exists o, output (snd (brotliCompress file config w)) = output w ++ [o]
               /\ o_file o = file +:+ ".br".
Proof.
  destruct (brotliCompress_cases file config w)
    as [[_ ->]|(stat & content & c & time & _ & _ & _ & _ & _ & ->)];
    [left; reflexivity | right; eexists; split; reflexivity].
Qed.

End Elsewhere.



Section Rejections.
Context `{Host} `{Codecs}.

Lemma handleCompressedData_rejects (file : string) (stat : Stats) (start : Z)
  (result : Result (list Byte.byte)) (w : World) (e : Error) :
  fst (handleCompressedData file stat start result w) = Rejected e
  <-> result = Err e.
Proof.
  unfold handleCompressedData. destruct result as [c|e'].
  - destruct (st_size stat >? Z.of_nat (length c)).
    + destruct (writeFile (fs w) (file +:+ ".gz") c) as [we fs'].
      cbn. split; discriminate.
    + cbn. split; discriminate.
  - cbn. split; congruence.
Qed.

Lemma handleCompressedData_rejected_world (file : string) (stat : Stats)
  (start : Z) (e : Error) (w : World) :
  handleCompressedData file stat start (Err e) w = (Rejected e, w).
Proof. reflexivity. Qed.

End Rejections.

(** X4: the gzip task rejects exactly when it is enabled, finds a regular
    file that the threshold does not stop, and then either the read fails
    or the chosen encoder reports an error; the reason is that error, and a
    rejected task has changed neither the file system nor [output]. *)
Theorem X4_gzip_rejects_on_read_or_codec_error `{Host} `{Codecs}
  (file : string) (config : Value) (w : World) (e : Error) :
  (fst (gzipCompress file config w) = Rejected e <->
   truthy (get config "enabled") = true
   /\ exists stat,
        statSync (fs w) file = Ok stat
        /\ isFile stat = true
        /\ below_threshold config stat = false
        /\ (readFile (fs w) file = Err e
            \/ exists content,
                 readFile (fs w) file = Ok content
                 /\ gzip_encode content config = Err e))
  /\ (fst (gzipCompress file config w) = Rejected e ->
      fs (snd (gzipCompress file config w)) = fs w
      /\ output (snd (gzipCompress file config w)) = output w).
Proof.
  unfold gzipCompress.
  destruct (truthy (get config "enabled")); cbn [negb];
    [|split; [split; [discriminate | intros [? _]; discriminate]
             | discriminate]].
  destruct (statSync (fs w) file) as [stat|se];
    [|split; [split; [discriminate
                     | intros (_ & stat & ? & _); discriminate]
             | discriminate]].
  cbn [Date_getTime].
  destruct (isFile stat) eqn:Fi; cbn [negb];
    [|split; [split; [discriminate
                     | intros (_ & stat' & E & Fi' & _);
                       injection E as <-; congruence]
             | discriminate]].
  destruct (below_threshold config stat) eqn:Th;
    [split; [split; [discriminate
                    | intros (_ & stat' & E & _ & Th' & _);
                      injection E as <-; congruence]
            | discriminate]|].
  unfold gzip_promise. cbn [fs].
  destruct (readFile (fs w) file) as [content|re].
  - split.
    + rewrite handleCompressedData_rejects. split.
      * intros Enc. split; [reflexivity|]. exists stat.
        repeat (split; [first [reflexivity | assumption]|]).
        right. exists content. split; [reflexivity | exact Enc].
      * intros (_ & stat' & E & _ & _ & [Rd|(content' & Rd & Enc)]);
          [discriminate|]. injection Rd as <-. exact Enc.
    + intros R. apply handleCompressedData_rejects in R. rewrite R.
      cbn. split; reflexivity.
  - cbn [fst snd fs output]. split; [|intros _; split; reflexivity].
    split.
    + intros E. injection E as ->. split; [reflexivity|]. exists stat.
      repeat (split; [first [reflexivity | assumption]|]). left. reflexivity.
    + intros (_ & stat' & _ & _ & _ & [Rd|(content' & Rd & _)]);
        [congruence | discriminate].
Qed.

Lemma brotli_promise_after_read `{Host} `{Codecs} (file : string)
  (config : Value) (stat : Stats) (start : Z) (w : World)
  (content : list Byte.byte) (e : Error) :
  readFile (fs w) file = Ok content ->
  fst (brotli_promise file config stat start w) <> Rejected e.
Proof.
  intros Rd. unfold brotli_promise. rewrite Rd.
  destruct (brotli_compress content config) as [c|]; [|discriminate].
  destruct (st_size stat >? Z.of_nat (length c)); [|discriminate].
  destruct (writeFile (fs w) (file +:+ ".br") c) as [we fs'].
  discriminate.
Qed.

(** X5: the Brotli task rejects exactly when it is enabled, finds a
    regular file that the threshold does not stop, and the read fails; a
    codec that returns [null] makes the task resolve, and that task like a
    rejected one has changed neither the file system nor [output]. *)
Theorem X5_brotli_rejects_on_read_error_only `{Host} `{Codecs}
  (file : string) (config : Value) (w : World) :
  (forall e,
     fst (brotliCompress file config w) = Rejected e <->
     truthy (get config "enabled") = true
     /\ exists stat,
          statSync (fs w) file = Ok stat
          /\ isFile stat = true
          /\ below_threshold config stat = false
          /\ readFile (fs w) file = Err e)
  /\ (forall e,
        fst (brotliCompress file config w) = Rejected e ->
        fs (snd (brotliCompress file config w)) = fs w
        /\ output (snd (brotliCompress file config w)) = output w)
  /\ (forall stat content,
        statSync (fs w) file = Ok stat ->
        readFile (fs w) file = Ok content ->
        brotli_compress content (brotli_argument config stat) = None ->
        fst (brotliCompress file config w) = Resolved
        /\ fs (snd (brotliCompress file config w)) = fs w
        /\ output (snd (brotliCompress file config w)) = output w).
Proof.
  unfold brotliCompress.
  destruct (truthy (get config "enabled")); cbn [negb];
    [|repeat split; try discriminate; intros [? _]; discriminate].
  destruct (statSync (fs w) file) as [stat|se];
    [|repeat split; try discriminate;
      intros (_ & stat & ? & _); discriminate].
  cbn [Date_getTime].
  destruct (isFile stat) eqn:Fi; cbn [negb];
    [|repeat split; try discriminate;
      intros (_ & stat' & E & Fi' & _); injection E as <-; congruence].
  destruct (below_threshold config stat) eqn:Th;
    [repeat split; try discriminate;
     intros (_ & stat' & E & _ & Th' & _); injection E as <-; congruence|].
  destruct (readFile (fs w) file) as [content|re] eqn:Rd.
  - split; [|split].
    + intros e. split.
      * intros R. now apply brotli_promise_after_read with (content := content) in R.
      * intros (_ & stat' & _ & _ & _ & Rd'). discriminate.
    + intros e R.
      now apply brotli_promise_after_read with (content := content) in R.
    + intros stat' content' St Rd' Enc.
      injection St as <-. injection Rd' as <-.
      unfold brotli_promise. cbn [fs]. rewrite Rd, Enc.
      cbn. repeat split; reflexivity.
  - unfold brotli_promise. cbn [fs]. rewrite Rd.
    cbn [fst snd fs output]. split; [|split].
    + intros e. split.
      * intros E. injection E as ->. split; [reflexivity|]. exists stat.
        repeat (split; [first [reflexivity | assumption]|]). reflexivity.
      * intros (_ & stat' & _ & _ & _ & Rd'). congruence.
    + intros e _. split; reflexivity.
    + intros stat' content' _ Rd'. discriminate.
Qed.

(** X4 on the unreadable script (the read fails with EACCES) and, with
    encoders that fail, on the readable one. *)
Lemma X4_gzip_rejects_on_read_or_codec_error_witness :
  fst (@gzipCompress Demo.host Demo.halving "/out/secret.js"
         (gzip_config VUndefined VUndefined) (Demo.world Demo.unreadable_fs))
    = Rejected EACCES
  /\ fst (@gzipCompress Demo.host Demo.failing "/out/a.js"
         (gzip_config VUndefined VUndefined) (Demo.world Demo.unreadable_fs))
    = Rejected CodecError.
Proof.
  split.
  - apply (@X4_gzip_rejects_on_read_or_codec_error Demo.host Demo.halving).
    split; [vm_compute; reflexivity|]. exists (Demo.a_stat 4).
    repeat (split; [vm_compute; reflexivity|]). left. vm_compute. reflexivity.
  - apply (@X4_gzip_rejects_on_read_or_codec_error Demo.host Demo.failing).
    split; [vm_compute; reflexivity|]. exists (Demo.a_stat 4).
    repeat (split; [vm_compute; reflexivity|]). right.
    exists Demo.four_bytes. split; vm_compute; reflexivity.
Defined.

(** X5 on the unreadable script, and on the readable one with a codec that
    returns [null]. *)
Lemma X5_brotli_rejects_on_read_error_only_witness :
  fst (@brotliCompress Demo.host Demo.halving "/out/secret.js"
         (brotli_config VUndefined VUndefined) (Demo.world Demo.unreadable_fs))
    = Rejected EACCES
  /\ fst (@brotliCompress Demo.host Demo.failing "/out/a.js"
         (brotli_config VUndefined VUndefined) (Demo.world Demo.unreadable_fs))
    = Resolved.
Proof.
  split.
  - apply (@X5_brotli_rejects_on_read_error_only Demo.host Demo.halving).
    split; [vm_compute; reflexivity|]. exists (Demo.a_stat 4).
    repeat (split; [vm_compute; reflexivity|]). vm_compute. reflexivity.
  - destruct (@X5_brotli_rejects_on_read_error_only Demo.host Demo.failing
                "/out/a.js" (brotli_config VUndefined VUndefined)
                (Demo.world Demo.unreadable_fs)) as (_ & _ & Null).
    apply (Null (Demo.a_stat 4) Demo.four_bytes); vm_compute; reflexivity.
Defined.

(** X6: a task on a path that [statSync] cannot examine (nothing there, a
    dangling link) or that is not a regular file (a directory, a socket)
    resolves at once: nothing is read, written or recorded, whatever the
    configuration. *)
Theorem X6_only_regular_files_are_compressed `{Host} `{Codecs}
  (file : string) (config : Value) (w : World) :
  (forall stat, statSync (fs w) file = Ok stat -> isFile stat = false) ->
  (fst (gzipCompress file config w) = Resolved
   /\ fs (snd (gzipCompress file config w)) = fs w
   /\ output (snd (gzipCompress file config w)) = output w)
  /\ (fst (brotliCompress file config w) = Resolved
   /\ fs (snd (brotliCompress file config w)) = fs w
   /\ output (snd (brotliCompress file config w)) = output w).
Proof.
  intros NotFile. unfold gzipCompress, brotliCompress.
  destruct (truthy (get config "enabled")); cbn [negb]; [|auto].
  destruct (statSync (fs w) file) as [stat|e]; [|auto].
  rewrite (NotFile stat eq_refl). cbn. auto.
Qed.

(** X6 on the output directory itself and on a path that is not there. *)
Lemma X6_only_regular_files_are_compressed_witness :
  let w := Demo.world Demo.small_fs in
  output (snd (@gzipCompress Demo.host Demo.halving "/out"
                 (gzip_config VUndefined VUndefined) w)) = []
  /\ fst (@brotliCompress Demo.host Demo.halving "/out/gone.js"
            (brotli_config VUndefined VUndefined) w) = Resolved.
Proof.
  cbv zeta. split.
  - destruct (@X6_only_regular_files_are_compressed Demo.host Demo.halving
                "/out" (gzip_config VUndefined VUndefined)
                (Demo.world Demo.small_fs)) as ((_ & _ & O) & _);
      [|exact O].
    intros stat E. vm_compute in E. injection E as <-. reflexivity.
  - destruct (@X6_only_regular_files_are_compressed Demo.host Demo.halving
                "/out/gone.js" (brotli_config VUndefined VUndefined)
                (Demo.world Demo.small_fs)) as (_ & (R & _));
      [|exact R].
    intros stat E. vm_compute in E. discriminate.
Defined.




(** ** What a drained queue leaves behind *)

Section DrainedQueue.
Context `{Host} `{Codecs}.

(** The tasks of the files [files], in the order the handler adds them. *)
Lemma run_tasks_cons2 (t1 t2 : World -> Settled * World)
  (ts : list (World -> Settled * World)) (w : World) :
  snd (run_tasks (t1 :: t2 :: ts) w) =
  snd (run_tasks ts (snd (t2 (snd (t1 w))))).
Proof.
  cbn [run_tasks]. destruct (t1 w) as [s1 w1]. cbn [snd].
  destruct (t2 w1) as [s2 w2]. cbn [snd].
  destruct (run_tasks ts w2) as [ss w3]. reflexivity.
Qed.


Lemma drained_output (threshold gzip brotli : Value) (files : list string)
  (w : World) :
  exists new,
    output (snd (run_tasks
                   (flat_map (fun file =>
                      [gzipCompress file (gzip_config threshold gzip);
                       brotliCompress file (brotli_config threshold brotli)])
                      files) w))
    = output w ++ new
    /\ (length new <= 2 * length files)%nat
    /\ Forall (fun o => exists file,
                 In file files /\ artifact_of file (o_file o)) new.
Proof.
  revert w. induction files as [|file files IH]; intros w;
    cbn [flat_map app].
  - exists []. cbn. rewrite app_nil_r.
    split; [reflexivity|]. split; [lia | constructor].
  - rewrite run_tasks_cons2.
    set (w1 := snd (gzipCompress file (gzip_config threshold gzip) w)).
    set (w2 := snd (brotliCompress file (brotli_config threshold brotli) w1)).
    destruct (IH w2) as (rest & Out & Len & Names).
    assert (exists mine,
              output w2 = output w ++ mine /\ (length mine <= 2)%nat
              /\ Forall (fun o => artifact_of file (o_file o)) mine)
      as (mine & Out2 & Len2 & Names2).
    { subst w2.
      destruct (gzipCompress_output file (gzip_config threshold gzip) w)
        as [G|(og & G & Ng)];
        destruct (brotliCompress_output file
                    (brotli_config threshold brotli) w1)
          as [B|(ob & B & Nb)];
        fold w1 in G; rewrite B, G.
      - exists []. rewrite app_nil_r.
        split; [reflexivity|]. split; [cbn; lia | constructor].
      - exists [ob]. split; [reflexivity|]. split; [cbn; lia|].
        constructor; [right; exact Nb | constructor].
      - exists [og]. split; [reflexivity|]. split; [cbn; lia|].
        constructor; [left; exact Ng | constructor].
      - exists [og; ob]. rewrite <- app_assoc.
        split; [reflexivity|]. split; [cbn; lia|].
        constructor; [left; exact Ng|].
        constructor; [right; exact Nb | constructor]. }
    exists (mine ++ rest). rewrite Out, Out2, <- app_assoc.
    split; [reflexivity|]. split.
    + rewrite length_app. cbn [length]. lia.
    + apply Forall_app. split.
      * eapply Forall_impl; [exact Names2|].
        intros o A. exists file. split; [now left | exact A].
      * eapply Forall_impl; [exact Names|].
        intros o (f & I & A). exists f. split; [now right | exact A].
Qed.

End DrainedQueue.



(** X9: while the queue built for the files [files] drains, [output] only
    grows at its end, by at most two outcomes per file, and every outcome
    added names the [.gz] or the [.br] artifact path of one of the
    files. *)
Theorem X9_outcomes_of_a_run `{Host} `{Codecs}
  (config threshold gzip brotli : Value) (files : list string) (w : World) :
  exists new,
    output (snd (onIdle (fold_left (enqueue threshold gzip brotli) files
                           (queue_of config)) w))
    = output w ++ new
    /\ (length new <= 2 * length files)%nat
    /\ Forall (fun o => exists file,
                 In file files /\ artifact_of file (o_file o)) new.
Proof.
  unfold onIdle. rewrite tasks_enqueued.
  cbn [queue_of new_pQueue tasks app]. apply drained_output.
Qed.

(** ** The handler as a whole *)

(** X10: a handler call that prints no table (outside production mode, or
    when the configuration search rejects, the configuration cannot be
    destructured, the pattern does not compile or discovery throws) has
    added no task: the file system and [output] are what they were. *)
Theorem X10_no_report_no_trace `{Host} `{Codecs} `{Formatter}
  (production : bool) (search : Search) (bundle : BundleEvent) (w : World) :
  (forall rows, fst (bundled production search bundle w) <> Reported rows) ->
  fs (snd (bundled production search bundle w)) = fs w
  /\ output (snd (bundled production search bundle w)) = output w.
Proof.
  unfold bundled.
  destruct production; cbn [negb]; [|auto].
  cbn [Date_getTime].
  destruct search as [|result]; [auto|].
  destruct (destructurable (resolved_config result)); cbn [negb]; [|auto].
  destruct (RegExp (get (resolved_config result) "test")) as [fileTest|];
    [|auto].
  match goal with
  | |- context [match ?found with Some _ => _ | None => _ end] =>
      destruct found as [files|]; [|auto]
  end.
  match goal with
  | |- context [onIdle ?q ?w1] => destruct (onIdle q w1) as [ss w2]
  end.
  cbn. intros No. now destruct (No _ eq_refl).
Qed.

(** X10 on a search that rejects and on an output directory that is not
    there. *)
Lemma X10_no_report_no_trace_witness :
  let w := Demo.world Demo.small_fs in
  let walk_mode := SearchResolved (VObj {[ "config" :=
                     VObj {[ "compressOutput" := VBool true ]} ]}) in
  let nowhere := {| root := mkBundle None []; outDir := "/dist" |} in
  fs (snd (@bundled Demo.host Demo.halving Demo.by_file true SearchRejected
             Demo.event w)) = fs w
  /\ output (snd (@bundled Demo.host Demo.halving Demo.by_file true walk_mode
             nowhere w)) = [].
Proof.
  cbv zeta. split.
  - apply (@X10_no_report_no_trace Demo.host Demo.halving Demo.by_file).
    intros rows. vm_compute. discriminate.
  - apply (@X10_no_report_no_trace Demo.host Demo.halving Demo.by_file true
             (SearchResolved (VObj {[ "config" :=
                VObj {[ "compressOutput" := VBool true ]} ]}))
             {| root := mkBundle None []; outDir := "/dist" |}
             (Demo.world Demo.small_fs)).
    intros rows. vm_compute. discriminate.
Defined.

(** ** The order of the report *)

Section SortedReport.
Context (compare : Outcome -> Outcome -> Z).
Hypothesis compare_total : forall a b, 0 < compare a b -> compare b a <= 0.




End SortedReport.



(** ** The rest of the Brotli parameter block *)

(** X12: the block built for a zlib-backed adapter has exactly five
    parameters: mode, quality, size hint, window size and the
    context-modelling switch; quality and window size are the
    configuration's [quality] and [lgwin] as they are, and the size hint is
    the size [statSync] reported for the file. *)
Theorem X12_native_block_contents (config : Value) (stat : Stats) :
  let params := get (native_config config stat) "params" in
  dom (spread params) =
    ({[ zlib.BROTLI_PARAM_MODE; zlib.BROTLI_PARAM_QUALITY;
        zlib.BROTLI_PARAM_SIZE_HINT; zlib.BROTLI_PARAM_LGWIN;
        zlib.BROTLI_PARAM_DISABLE_LITERAL_CONTEXT_MODELING ]} : gset string)
  /\ get params zlib.BROTLI_PARAM_QUALITY = get config "quality"
  /\ get params zlib.BROTLI_PARAM_LGWIN = get config "lgwin"
  /\ get params zlib.BROTLI_PARAM_SIZE_HINT = VNum (st_size stat).
Proof.
  cbv zeta. rewrite native_config_eq, get_params. split.
  - cbn [spread list_to_map foldr]. rewrite !dom_insert_L, dom_empty_L.
    set_solver.
  - rewrite !get_literal. repeat split; reflexivity.
Qed.

(** ** More on the directory walk *)

Lemma append_cons (c : Ascii.ascii) (a b : string) :
  String c a +:+ b = String c (a +:+ b).
Proof. reflexivity. Qed.

Lemma prefix_append (a b : string) : String.prefix a (a +:+ b) = true.
Proof.
  induction a as [|c a IH].
  - change ("" +:+ b) with b. destruct b; reflexivity.
  - rewrite append_cons. cbn [String.prefix].
    destruct (Ascii.ascii_dec c c); [exact IH | congruence].
Qed.

Lemma prefix_of_longer (a b p : string) :
  String.prefix (a +:+ b) p = true -> String.prefix a p = true.
Proof.
  revert p. induction a as [|c a IH]; intros p.
  - destruct p; reflexivity.
  - rewrite append_cons. destruct p as [|d p]; cbn [String.prefix];
      [discriminate|].
    destruct (Ascii.ascii_dec c d); [apply IH | discriminate].
Qed.

Lemma append_assoc (a b c : string) : (a +:+ b) +:+ c = a +:+ (b +:+ c).
Proof.
  induction a as [|x a IH]; [reflexivity|].
  rewrite !append_cons. now rewrite IH.
Qed.

Lemma prefix_path_join (dir file : string) :
  String.prefix (dir +:+ "/") (path_join dir file) = true.
Proof. unfold path_join. rewrite <- append_assoc. apply prefix_append. Qed.

Lemma prefix_under_entry (dir file p : string) :
  String.prefix (path_join dir file +:+ "/") p = true ->
  String.prefix (dir +:+ "/") p = true.
Proof.
  unfold path_join.
  replace ((dir +:+ "/" +:+ file) +:+ "/")
    with ((dir +:+ "/") +:+ (file +:+ "/"))
    by (now rewrite !append_assoc).
  apply prefix_of_longer.
Qed.

Section WalkYields.
Context (fileTest : string -> bool) (fs : gmap string Node).

Lemma for_files_found (recur : string -> Generated) (dir : string)
  (files : list string) :
  (forall f, Forall (found_under fs f) (fst (recur f))) ->
  Forall (found_under fs dir) (fst (for_files fileTest fs recur dir files)).
Proof.
  intros R. induction files as [|file files IH]; cbn [for_files fst].
  - constructor.
  - destruct (statSync fs (path_join dir file)) as [stat|e] eqn:St;
      [|constructor].
    destruct (isDirectory stat) eqn:D.
    + pose proof (R (path_join dir file)) as Rf.
      assert (Forall (found_under fs dir) (fst (recur (path_join dir file))))
        as Rd.
      { eapply Forall_impl; [exact Rf|]. intros p [Pre St'].
        split; [now apply prefix_under_entry with file | exact St']. }
      destruct (recur (path_join dir file)) as [inner c].
      destruct (for_files fileTest fs recur dir files) as [rest c'].
      cbn [fst] in *.
      destruct c; cbn [fst]; try exact Rd; apply Forall_app; auto.
    + destruct (fileTest (path_join dir file)); [|exact IH].
      destruct (for_files fileTest fs recur dir files) as [rest c'].
      cbn [fst] in *. constructor; [|exact IH].
      split; [apply prefix_path_join | now exists stat].
Qed.

Lemma walk_found (fuel : nat) (dir : string) :
  Forall (found_under fs dir) (fst (walk fileTest fs fuel dir)).
Proof.
  revert dir. induction fuel as [|fuel IH]; intros dir; cbn [walk].
  - constructor.
  - destruct (readdirSync fs dir) as [files|e]; [|constructor].
    apply for_files_found, IH.
Qed.

(** The loop ends by throwing as soon as one entry cannot be examined. *)
Lemma for_files_throws (recur : string -> Generated) (dir : string)
  (files : list string) :
  forallb (fun file => is_ok (statSync fs (path_join dir file))) files = false ->
  snd (for_files fileTest fs recur dir files) <> Returned.
Proof.
  induction files as [|file files IH]; cbn [for_files forallb snd];
    [discriminate|].
  destruct (statSync fs (path_join dir file)) as [stat|e]; cbn [is_ok andb];
    [|discriminate].
  intros A. specialize (IH A).
  destruct (isDirectory stat).
  - destruct (recur (path_join dir file)) as [inner c].
    destruct (for_files fileTest fs recur dir files) as [rest c'].
    cbn [snd] in *. destruct c; cbn [snd]; congruence.
  - destruct (fileTest (path_join dir file)); [|exact IH].
    destruct (for_files fileTest fs recur dir files) as [rest c'].
    exact IH.
Qed.

End WalkYields.

(** X13: every path the directory walk yields lies below the directory
    the walk started in and is something [statSync] can examine that is
    not a directory; directories are descended into, never yielded. *)
Theorem X13_walk_yields_files_below_root (fileTest : string -> bool)
  (fs : gmap string Node) (root : string) :
  Forall (fun p =>
            String.prefix (root +:+ "/") p = true
            /\ exists stat, statSync fs p = Ok stat /\ isDirectory stat = false)
    (fst (filesToCompress_dir fileTest fs root)).
Proof. apply walk_found. Qed.

(** X14: draining the directory walk throws exactly when the starting
    directory cannot be listed or one of its direct entries cannot be
    examined by [statSync]; these are the two calls outside the [try]. *)
Theorem X14_walk_throws_only_at_the_root (fileTest : string -> bool)
  (fs : gmap string Node) (root : string) :
  spread_generator (filesToCompress_dir fileTest fs root) = None <->
  match readdirSync fs root with
  | Err _ => True
  | Ok files =>
      forallb (fun file => is_ok (statSync fs (path_join root file))) files
      = false
  end.
Proof.
  destruct (readdirSync fs root) as [files|e] eqn:Rd.
  - destruct (forallb (fun file => is_ok (statSync fs (path_join root file)))
                files) eqn:A.
    + rewrite (filesToCompress_dir_returns fileTest fs root files Rd A).
      cbn. split; discriminate.
    + split; [reflexivity|]. intros _.
      pose proof (for_files_throws fileTest fs
                    (walk fileTest fs (longest_path fs)) root files A) as T.
      unfold filesToCompress_dir. cbn [walk]. rewrite Rd.
      destruct (for_files fileTest fs (walk fileTest fs (longest_path fs))
                  root files) as [ys c].
      cbn [snd] in T. destruct c; [congruence | reflexivity | reflexivity].
  - split; [trivial|]. intros _.
    unfold filesToCompress_dir. cbn [walk]. now rewrite Rd.
Qed.

(** ** Switching a codec off *)

(** X15: a codec section decides whether its codec runs: with a falsy
    [enabled] in the section the task resolves at once and leaves the world
    exactly as it was, whatever the file; a section without [enabled] (or
    no section at all) leaves the codec on, the built-in default. *)
Theorem X15_section_switches_codec `{Host} `{Codecs} (file : string)
  (threshold section : Value) (w : World) :
  (forall v, spread section !! "enabled" = Some v -> truthy v = false ->
     gzipCompress file (gzip_config threshold section) w = (Resolved, w)
     /\ brotliCompress file (brotli_config threshold section) w = (Resolved, w))
  /\ (spread section !! "enabled" = None ->
      truthy (get (gzip_config threshold section) "enabled") = true
      /\ truthy (get (brotli_config threshold section) "enabled") = true).
Proof.
  split.
  - intros v E Off. unfold gzipCompress, brotliCompress, gzip_config,
      brotli_config.
    rewrite !get_merge_config, E, Off. split; reflexivity.
  - intros E. unfold gzip_config, brotli_config.
    rewrite !get_merge_config, E. split; reflexivity.
Qed.

(** X15 on a section that sets [enabled] to [false] and on one that only
    sets the quality. *)
Lemma X15_section_switches_codec_witness :
  @gzipCompress Demo.host Demo.halving "/out/a.js"
    (gzip_config VUndefined (VObj {[ "enabled" := VBool false ]}))
    (Demo.world Demo.small_fs)
  = (Resolved, Demo.world Demo.small_fs)
  /\ truthy (get (brotli_config VUndefined (VObj {[ "quality" := VNum 5 ]}))
               "enabled") = true.
Proof.
  split.
  - destruct (@X15_section_switches_codec Demo.host Demo.halving "/out/a.js"
                VUndefined (VObj {[ "enabled" := VBool false ]})
                (Demo.world Demo.small_fs)) as [Off _].
    apply (Off (VBool false)); vm_compute; reflexivity.
  - destruct (@X15_section_switches_codec Demo.host Demo.halving "/out/a.js"
                VUndefined (VObj {[ "quality" := VNum 5 ]})
                (Demo.world Demo.small_fs)) as [_ On].
    apply On. vm_compute. reflexivity.
Defined.
